(** * plat-wise: the OAuth 2.0 token lifecycle of the Wise client (oauth.go)

    A shallow embedding of [Token], [OAuthClient] and [TokenManager] and of the
    standard-library functions they call ([net/url], [strings], [time],
    [encoding/json], [fmt]), followed by the properties of the token
    lifecycle.

    Go strings are byte sequences: they are [string] here, one [ascii] per
    byte.  A [url.Values] map is a [gmap] from keys to value lists.  The
    clock, the token endpoint and the refresh callback are the environment:
    a function of the program gets the world it runs in and returns the
    world it leaves, with the requests it sent and the callbacks it invoked
    on a trace. *)

From stdpp Require Import gmap strings list fin_maps sorting pretty.
From Stdlib Require Import Ascii ZArith Lia.

Local Open Scope Z_scope.

(** ** package strings *)

Module strings.

(** [strings.Join(elems, sep)] *)
Fixpoint Join (elems : list string) (sep : string) : string :=
  match elems with
  | [] => ""
  | [e] => e
  | e :: rest => e +:+ sep +:+ Join rest sep
  end.

(** [strings.Cut(s, sep)] for a separator of one byte: the text before the
    first [sep] and the text after it; all of [s] and nothing when there is
    no [sep]. *)
Fixpoint Cut (s : string) (sep : ascii) : string * string :=
  match s with
  | EmptyString => (EmptyString, EmptyString)
  | String c rest =>
      if Ascii.eqb c sep then (EmptyString, rest)
      else let (before, after) := Cut rest sep in (String c before, after)
  end.

(** [strings.Contains(s, substr)] for a [substr] of one byte. *)
Fixpoint ContainsByte (s : string) (c : ascii) : bool :=
  match s with
  | EmptyString => false
  | String c' rest => Ascii.eqb c' c || ContainsByte rest c
  end.

End strings.

(** ** package net/url *)

Module url.

(** [url.Values] is [map[string][]string]. *)
Abbreviation Values := (gmap string (list string)).

(** [v.Set(key, value)]: [v[key] = []string{value}]. *)
Definition Values_Set (key value : string) (v : Values) : Values :=
  <[key := [value]]> v.

(** [v.Add(key, value)]: [v[key] = append(v[key], value)]. *)
Definition Values_Add (key value : string) (v : Values) : Values :=
  <[key := default [] (v !! key) ++ [value]]> v.

Definition byte_in (lo hi c : ascii) : bool :=
  (N.leb (N_of_ascii lo) (N_of_ascii c) && N.leb (N_of_ascii c) (N_of_ascii hi))%bool.

(** [shouldEscape(c, encodeQueryComponent)]: letters, digits and the four
    marks [-_.~] pass; the reserved characters and everything else are
    escaped. *)
Definition shouldEscape (c : ascii) : bool :=
  if (byte_in "a" "z" c || byte_in "A" "Z" c || byte_in "0" "9" c)%bool then false
  else if (Ascii.eqb c "-" || Ascii.eqb c "_" || Ascii.eqb c "." || Ascii.eqb c "~")%bool
  then false
  else true.

(** [upperhex[n]] for [n < 16]. *)
Definition upperhex (n : N) : ascii :=
  match String.get (N.to_nat n) "0123456789ABCDEF" with
  | Some c => c
  | None => "0"%char
  end.

(** [QueryEscape(s)] is [escape(s, encodeQueryComponent)]: a space becomes
    [+], an escaped byte [c] becomes [%] followed by [upperhex[c>>4]] and
    [upperhex[c&15]]. *)
Fixpoint QueryEscape (s : string) : string :=
  match s with
  | EmptyString => EmptyString
  | String c rest =>
      if Ascii.eqb c " " then String "+" (QueryEscape rest)
      else if shouldEscape c then
        String "%" (String (upperhex (N.shiftr (N_of_ascii c) 4))
                      (String (upperhex (N.land (N_of_ascii c) 15))
                         (QueryEscape rest)))
      else String c (QueryEscape rest)
  end.

Definition ishex (c : ascii) : bool :=
  (byte_in "0" "9" c || byte_in "a" "f" c || byte_in "A" "F" c)%bool.

Definition unhex (c : ascii) : N :=
  if byte_in "0" "9" c then N_of_ascii c - N_of_ascii "0"
  else if byte_in "a" "f" c then N_of_ascii c - N_of_ascii "a" + 10
  else if byte_in "A" "F" c then N_of_ascii c - N_of_ascii "A" + 10
  else 0.

(** [QueryUnescape(s)] is [unescape(s, encodeQueryComponent)]; [None] is
    the [EscapeError] of a [%] not followed by two hex digits. *)
Fixpoint QueryUnescape (s : string) : option string :=
  match s with
  | EmptyString => Some EmptyString
  | String c rest =>
      if Ascii.eqb c "%" then
        match rest with
        | String h (String l rest') =>
            if (ishex h && ishex l)%bool then
              String (ascii_of_N (N.lor (N.shiftl (unhex h) 4) (unhex l)))
                <$> QueryUnescape rest'
            else None
        | _ => None
        end
      else if Ascii.eqb c "+" then String " " <$> QueryUnescape rest
      else String c <$> QueryUnescape rest
  end.

(** The order of [slices.Sort] on strings: bytewise lexicographic. *)
Definition string_le (x y : string) : Prop := Is_true (String.leb x y).

#[global] Instance string_le_dec x y : Decision (string_le x y) := _.

(** The keys of the map, as [slices.Sort] leaves them. *)
Definition sorted_keys (v : Values) : list string :=
  merge_sort string_le (map fst (map_to_list v)).

(** What [Encode] writes for one value of one key. *)
Definition pair (key value : string) : string :=
  QueryEscape key +:+ "=" +:+ QueryEscape value.

(** The inner loop of [Encode]: one [key=value] pair per value of the key. *)
Definition encode_key (v : Values) (k : string) : list string :=
  map (pair k) (default [] (v !! k)).

(** [v.Encode()]: the pairs in sorted key order, separated by [&].  The
    buffer is non-empty after the first pair, so the test [buf.Len() > 0]
    holds exactly for the later pairs. *)
Definition Values_Encode (v : Values) : string :=
  strings.Join (concat (map (encode_key v) (sorted_keys v))) "&".

(** What the loop of [parseQuery] cuts off the query, one [strings.Cut] at
    [&] after the other, until the query is empty. *)
Fixpoint segments (query : string) : list string :=
  match query with
  | EmptyString => [EmptyString]
  | String c rest =>
      if Ascii.eqb c "&" then EmptyString :: segments rest
      else match segments rest with
           | seg :: segs => String c seg :: segs
           | [] => [String c EmptyString]
           end
  end.

(** The body of the loop: a segment with a semicolon, an empty segment and a
    segment that does not unescape add nothing; any other adds its value to
    the values of its key. *)
Definition parseSegment (m : Values) (key : string) : Values :=
  if strings.ContainsByte key ";" then m
  else if String.eqb key "" then m
  else
    let (key, value) := strings.Cut key "=" in
    match QueryUnescape key, QueryUnescape value with
    | Some key, Some value => Values_Add key value m
    | _, _ => m
    end.

(** [url.ParseQuery(query)], the map it returns. *)
Definition ParseQuery (query : string) : Values :=
  fold_left parseSegment (segments query) ∅.

End url.


(** ** package encoding/base64 *)

Module base64.

(** The alphabet of [base64.StdEncoding]. *)
Definition encodeStd : string :=
  "ABCDEFGHIJKLMNOPQRSTUVWXYZabcdefghijklmnopqrstuvwxyz0123456789+/".

Definition digit (n : N) : ascii :=
  match String.get (N.to_nat n) encodeStd with
  | Some c => c
  | None => "="%char
  end.

(** [StdEncoding.EncodeToString]: three bytes give four digits; a last group
    of one or two bytes is padded with [=]. *)
Fixpoint EncodeToString (src : string) : string :=
  match src with
  | EmptyString => EmptyString
  | String a EmptyString =>
      let a := N_of_ascii a in
      String (digit (N.shiftr a 2))
        (String (digit (N.shiftl (N.land a 3) 4)) "==")
  | String a (String b EmptyString) =>
      let a := N_of_ascii a in
      let b := N_of_ascii b in
      String (digit (N.shiftr a 2))
        (String (digit (N.lor (N.shiftl (N.land a 3) 4) (N.shiftr b 4)))
           (String (digit (N.shiftl (N.land b 15) 2)) "="))
  | String a (String b (String c rest)) =>
      let a := N_of_ascii a in
      let b := N_of_ascii b in
      let c := N_of_ascii c in
      String (digit (N.shiftr a 2))
        (String (digit (N.lor (N.shiftl (N.land a 3) 4) (N.shiftr b 4)))
           (String (digit (N.lor (N.shiftl (N.land b 15) 2) (N.shiftr c 6)))
              (String (digit (N.land c 63)) (EncodeToString rest))))
  end.

End base64.

(** ** package time *)

Module time.

(** A [Time] is the instant it denotes, in nanoseconds since the zero [Time]
    (January 1, year 1, 00:00 UTC), on one time line: the wall clock and the
    monotonic clock of [time.Now()] are taken to agree.  A [Duration] is an
    [int64] count of nanoseconds. *)
Definition Time := Z.
Definition Duration := Z.

(** The value of a 64-bit signed integer after wrap-around. *)
Definition int64 (z : Z) : Z := (z + 2 ^ 63) mod 2 ^ 64 - 2 ^ 63.

Definition Nanosecond : Duration := 1.
Definition Second : Duration := 1000000000.
Definition Minute : Duration := 60 * Second.

(** The product of two [Duration]s, as Go's [int64] multiplication gives it. *)
Definition mul (a b : Duration) : Duration := int64 (a * b).

(** The zero value of [Time]. *)
Definition zero : Time := 0.

(** [t.Add(d)].  Go saturates at the ends of the range of [Time], 2^63
    seconds from the zero instant; an instant has no bound here. *)
Definition Add (t : Time) (d : Duration) : Time := t + d.

(** [t.After(u)]: the instant [t] is (strictly) after [u]. *)
Definition After (t u : Time) : bool := u <? t.

End time.

(** ** package encoding/json *)

Module json.

(** A number literal: an integer literal with its value, or a literal with a
    fraction or an exponent. *)
Inductive Number :=
| Integer (z : Z)
| NonInteger (literal : string).

(** A JSON text, read. *)
#[local] Set Warnings "-register-all".
Inductive Value :=
| Null
| Bool (b : bool)
| Num (n : Number)
| Str (s : string)
| Array (elems : list Value)
| Object (members : list (string * Value)).

Definition lower_to_upper (c : ascii) : ascii :=
  if url.byte_in "a" "z" c then ascii_of_N (N_of_ascii c - 32) else c.

(** [foldName]: ASCII letters go to upper case; the Kelvin sign (U+212A,
    bytes E2 84 AA) and the long s (U+017F, bytes C5 BF) are the two
    non-ASCII runes whose fold set has an ASCII letter, [K] and [S].  Every
    other non-ASCII rune folds to a non-ASCII rune; its bytes are kept, which
    decides equality with the fold of an ASCII name the same way. *)
Fixpoint foldName (s : string) : string :=
  match s with
  | EmptyString => EmptyString
  | String c rest =>
      match N_of_ascii c, rest with
      | 226%N, String c1 (String c2 rest2) =>
          if (N.eqb (N_of_ascii c1) 132 && N.eqb (N_of_ascii c2) 170)%bool
          then String "K" (foldName rest2)
          else String c (foldName rest)
      | 197%N, String c1 rest1 =>
          if N.eqb (N_of_ascii c1) 191
          then String "S" (foldName rest1)
          else String c (foldName rest)
      | _, _ => String (lower_to_upper c) (foldName rest)
      end
  end.

End json.


(** ** Errors

    [errorString s] is the error of [fmt.Errorf] without a [%w] verb, with
    the formatted message [s].  [wrapError prefix err] is the error of
    [fmt.Errorf(prefix + "%w", err)]: its message is [prefix] followed by the
    message of [err], and it unwraps to [err].  The two [json] errors are
    those of [json.Unmarshal]: invalid JSON text, and a value that cannot be
    stored in the destination ([Field] is empty for the destination
    itself). *)

Inductive error :=
| errorString (s : string)
| wrapError (prefix : string) (err : error)
| SyntaxError
| UnmarshalTypeError (Value : json.Value) (Field : string).

(** A Go result pair [(value, error)] with exactly one side set. *)
Inductive Result (A : Type) :=
| Ok (a : A)
| Err (e : error).

Arguments Ok {A} a.
Arguments Err {A} e.

(** ** oauth.go: endpoints, configuration, Token *)

Definition ProductionAuthURL : string := "https://wise.com/oauth/authorize".
Definition ProductionTokenURL : string := "https://api.wise.com/oauth/token".
Definition SandboxAuthURL : string := "https://sandbox.transferwise.tech/oauth/authorize".
Definition SandboxTokenURL : string := "https://api.sandbox.transferwise.tech/oauth/token".

Record OAuthConfig := {
  ClientID : string;
  ClientSecret : string;
  RedirectURL : string;
  Sandbox : bool;
  Scopes : list string
}.

(** [ExpiresIn] is a Go [int], 64 bits wide; [ExpiresAt] has the tag
    [json:"-"] and is never read from the wire. *)
Record Token := {
  AccessToken : string;
  TokenType : string;
  RefreshToken : string;
  ExpiresIn : Z;
  Scope : string;
  ExpiresAt : time.Time
}.

(** The zero value [Token{}]. *)
Definition zeroToken : Token :=
  {| AccessToken := ""; TokenType := ""; RefreshToken := ""; ExpiresIn := 0;
     Scope := ""; ExpiresAt := time.zero |}.

(** [t.IsExpired()] when [time.Now()] reads [now]:
    [time.Now().Add(5 * time.Minute).After(t.ExpiresAt)]. *)
Definition Token_IsExpired (t : Token) (now : time.Time) : bool :=
  time.After (time.Add now (5 * time.Minute)) (ExpiresAt t).

(** *** Decoding a token response

    [json.Unmarshal(body, &token)] on the struct [Token]: the five tagged
    fields, a key resolved by exact name first and by folded name second,
    unknown keys skipped, [null] leaving a field as it is, a later key
    overriding an earlier one, and the first type error kept while decoding
    goes on. *)

Inductive field := fAccessToken | fTokenType | fRefreshToken | fExpiresIn | fScope.

Definition field_name (f : field) : string :=
  match f with
  | fAccessToken => "access_token"
  | fTokenType => "token_type"
  | fRefreshToken => "refresh_token"
  | fExpiresIn => "expires_in"
  | fScope => "scope"
  end.

Definition fields : list field :=
  [fAccessToken; fTokenType; fRefreshToken; fExpiresIn; fScope].

Definition findField (key : string) : option field :=
  match find (fun f => String.eqb (field_name f) key) fields with
  | Some f => Some f
  | None =>
      find (fun f => String.eqb (json.foldName (field_name f)) (json.foldName key)) fields
  end.

Definition setString (f : field) (s : string) (t : Token) : Token :=
  match f with
  | fAccessToken =>
      {| AccessToken := s; TokenType := TokenType t; RefreshToken := RefreshToken t;
         ExpiresIn := ExpiresIn t; Scope := Scope t; ExpiresAt := ExpiresAt t |}
  | fTokenType =>
      {| AccessToken := AccessToken t; TokenType := s; RefreshToken := RefreshToken t;
         ExpiresIn := ExpiresIn t; Scope := Scope t; ExpiresAt := ExpiresAt t |}
  | fRefreshToken =>
      {| AccessToken := AccessToken t; TokenType := TokenType t; RefreshToken := s;
         ExpiresIn := ExpiresIn t; Scope := Scope t; ExpiresAt := ExpiresAt t |}
  | fScope =>
      {| AccessToken := AccessToken t; TokenType := TokenType t; RefreshToken := RefreshToken t;
         ExpiresIn := ExpiresIn t; Scope := s; ExpiresAt := ExpiresAt t |}
  | fExpiresIn => t
  end.

Definition setExpiresIn (n : Z) (t : Token) : Token :=
  {| AccessToken := AccessToken t; TokenType := TokenType t; RefreshToken := RefreshToken t;
     ExpiresIn := n; Scope := Scope t; ExpiresAt := ExpiresAt t |}.

Definition setExpiresAt (at_ : time.Time) (t : Token) : Token :=
  {| AccessToken := AccessToken t; TokenType := TokenType t; RefreshToken := RefreshToken t;
     ExpiresIn := ExpiresIn t; Scope := Scope t; ExpiresAt := at_ |}.

(** [d.saveError]: only the first error is kept. *)
Definition saveError (saved : option error) (e : error) : option error :=
  match saved with
  | Some _ => saved
  | None => Some e
  end.

(** Whether an integer fits Go's [int]. *)
Definition fitsInt (z : Z) : bool := (- 2 ^ 63 <=? z) && (z <? 2 ^ 63).

(** Storing one member value in the field its key resolved to. *)
Definition storeField (f : field) (v : json.Value) (st : Token * option error)
  : Token * option error :=
  let (t, saved) := st in
  match v, f with
  | json.Null, _ => st
  | json.Num (json.Integer z), fExpiresIn =>
      if fitsInt z then (setExpiresIn z t, saved)
      else (t, saveError saved (UnmarshalTypeError v (field_name f)))
  | json.Str s, (fAccessToken | fTokenType | fRefreshToken | fScope) =>
      (setString f s t, saved)
  | _, _ => (t, saveError saved (UnmarshalTypeError v (field_name f)))
  end.

Definition storeMember (st : Token * option error) (member : string * json.Value)
  : Token * option error :=
  match findField (fst member) with
  | Some f => storeField f (snd member) st
  | None => st
  end.

(** Decoding a read JSON text into [dst]. *)
Definition decodeToken (v : json.Value) (dst : Token) : Token * option error :=
  match v with
  | json.Null => (dst, None)
  | json.Object members => fold_left storeMember members (dst, None)
  | _ => (dst, Some (UnmarshalTypeError v ""))
  end.

(** Whether a value can be stored in a field: [null] in any, a string in the
    four string fields, an integer of 64 bits in [expires_in]. *)
Definition fits (f : field) (v : json.Value) : bool :=
  match v, f with
  | json.Null, _ => true
  | json.Num (json.Integer z), fExpiresIn => fitsInt z
  | json.Str _, (fAccessToken | fTokenType | fRefreshToken | fScope) => true
  | _, _ => false
  end.

(** Whether a member of a response object decodes: its key is not one of
    the Token's, or its value fits the field. *)
Definition memberFits (member : string * json.Value) : bool :=
  match findField (fst member) with
  | Some f => fits f (snd member)
  | None => true
  end.

(** ** package net/http, as the token endpoint is seen from [tokenRequest] *)

Module http.

Record Client := { Timeout : time.Duration }.

(** What [tokenRequest] puts in a request. *)
Record Request := {
  Method : string;
  URL : string;
  Authorization : string;
  ContentType : string;
  Body : string
}.

(** A response body: its bytes, and the JSON text they spell, if any. *)
Record ResponseBody := {
  raw : string;
  reading : option json.Value
}.

(** The four ways the exchange can go: [http.NewRequestWithContext] fails
    (nothing is sent), [httpClient.Do] fails (no response: refused, timed
    out, cancelled), [io.ReadAll] fails after the status line, or status and
    body arrive. *)
Inductive Outcome :=
| NewRequestFailed (err : error)
| DoFailed (err : error)
| ReadFailed (StatusCode : Z) (Status : string) (err : error)
| Response (StatusCode : Z) (Status : string) (body : ResponseBody).

(** An outcome and the nanoseconds it took. *)
Record Reply := {
  elapsed : N;
  outcome : Outcome
}.

(** Whether the request left the client. *)
Definition sent (o : Outcome) : bool :=
  match o with
  | NewRequestFailed _ => false
  | _ => true
  end.

End http.

(** [json.Unmarshal(body, &dst)]. *)
Definition Unmarshal (body : http.ResponseBody) (dst : Token) : Token * option error :=
  match http.reading body with
  | None => (dst, Some SyntaxError)
  | Some v => decodeToken v dst
  end.

Record OAuthClient := {
  config : OAuthConfig;
  httpClient : http.Client
}.

Definition NewOAuthClient (config : OAuthConfig) : OAuthClient :=
  {| config := config; httpClient := {| http.Timeout := 30 * time.Second |} |}.

(** The query parameters [AuthURL] sets, in the order of the code. *)
Definition AuthURL_params (c : OAuthClient) (state : string) : url.Values :=
  let params : url.Values := ∅ in
  let params := url.Values_Set "client_id" (ClientID (config c)) params in
  let params := url.Values_Set "redirect_uri" (RedirectURL (config c)) params in
  let params := url.Values_Set "response_type" "code" params in
  let params := url.Values_Set "state" state params in
  if (0 <? length (Scopes (config c)))%nat
  then url.Values_Set "scope" (strings.Join (Scopes (config c)) " ") params
  else params.

(** [c.AuthURL(state)] *)
Definition OAuthClient_AuthURL (c : OAuthClient) (state : string) : string :=
  let authURL := if Sandbox (config c) then SandboxAuthURL else ProductionAuthURL in
  authURL +:+ "?" +:+ url.Values_Encode (AuthURL_params c state).

(** The token endpoint of the configured environment. *)
Definition tokenURL_of (c : OAuthClient) : string :=
  if Sandbox (config c) then SandboxTokenURL else ProductionTokenURL.

(** What the program leaves behind: requests sent and callbacks invoked. *)
Inductive Event :=
| Sent (req : http.Request)
| Notified (t : Token).

Section Lifecycle.

(** The store a refresh callback writes to (secret storage, a file); a
    callback receives the new Token and acts on that store only: the fields
    of the manager are unexported. *)
Context {Ext : Type}.

Definition Callback : Type := Token -> Ext -> Ext.

Record World := {
  clock : time.Time;
  store : Ext;
  trace : list Event
}.

(** The environment: what happens to a request, given what happened so far. *)
Variable transport : list Event -> http.Request -> http.Reply.

(** [time.Now()] *)
Definition Now (w : World) : time.Time := clock w.

(** The world once the exchange is over: time has passed, and the request
    is on the trace if it left the client. *)
Definition exchanged (req : http.Request) (reply : http.Reply) (w : World) : World :=
  {| clock := clock w + Z.of_N (http.elapsed reply);
     store := store w;
     trace := if http.sent (http.outcome reply) then trace w ++ [Sent req] else trace w |}.

(** The request [tokenRequest] builds: POST, Basic authentication with the
    client credentials, a form-encoded body. *)
Definition buildRequest (c : OAuthClient) (tokenURL : string) (data : url.Values)
  : http.Request :=
  {| http.Method := "POST";
     http.URL := tokenURL;
     http.Authorization :=
       "Basic " +:+ base64.EncodeToString
                      (ClientID (config c) +:+ ":" +:+ ClientSecret (config c));
     http.ContentType := "application/x-www-form-urlencoded";
     http.Body := url.Values_Encode data |}.

(** [c.tokenRequest(ctx, tokenURL, data)] *)
Definition OAuthClient_tokenRequest (c : OAuthClient) (tokenURL : string)
    (data : url.Values) (w : World) : Result Token * World :=
  let req := buildRequest c tokenURL data in
  let reply := transport (trace w) req in
  let w := exchanged req reply w in
  match http.outcome reply with
  | http.NewRequestFailed err => (Err (wrapError "creating request: " err), w)
  | http.DoFailed err => (Err (wrapError "executing request: " err), w)
  | http.ReadFailed _ _ err => (Err (wrapError "reading response: " err), w)
  | http.Response StatusCode Status body =>
      if 400 <=? StatusCode then
        (Err (errorString ("token request failed: " +:+ Status +:+ " - " +:+ http.raw body)), w)
      else
        match Unmarshal body zeroToken with
        | (_, Some err) => (Err (wrapError "parsing token response: " err), w)
        | (token, None) =>
            (Ok (setExpiresAt
                   (time.Add (Now w) (time.mul (ExpiresIn token) time.Second))
                   token), w)
        end
  end.

(** The form [ExchangeCode] posts. *)
Definition ExchangeCode_data (c : OAuthClient) (code : string) : url.Values :=
  let data : url.Values := ∅ in
  let data := url.Values_Set "grant_type" "authorization_code" data in
  let data := url.Values_Set "code" code data in
  url.Values_Set "redirect_uri" (RedirectURL (config c)) data.

(** [c.ExchangeCode(ctx, code)] *)
Definition OAuthClient_ExchangeCode (c : OAuthClient) (code : string) (w : World)
  : Result Token * World :=
  OAuthClient_tokenRequest c (tokenURL_of c) (ExchangeCode_data c code) w.

(** The form [RefreshToken] posts. *)
Definition RefreshToken_data (refreshToken : string) : url.Values :=
  let data : url.Values := ∅ in
  let data := url.Values_Set "grant_type" "refresh_token" data in
  url.Values_Set "refresh_token" refreshToken data.

(** [c.RefreshToken(ctx, refreshToken)] *)
Definition OAuthClient_RefreshToken (c : OAuthClient) (refreshToken : string) (w : World)
  : Result Token * World :=
  OAuthClient_tokenRequest c (tokenURL_of c) (RefreshToken_data refreshToken) w.

(** The form [ClientCredentials] posts. *)
Definition ClientCredentials_data : url.Values :=
  let data : url.Values := ∅ in
  url.Values_Set "grant_type" "client_credentials" data.

(** [c.ClientCredentials(ctx)] *)
Definition OAuthClient_ClientCredentials (c : OAuthClient) (w : World)
  : Result Token * World :=
  OAuthClient_tokenRequest c (tokenURL_of c) ClientCredentials_data w.

(** The three grant exchanges, under one name. *)
Inductive Grant :=
| AuthorizationCode (code : string)
| RefreshGrant (refreshToken : string)
| ClientCredentialsGrant.

Definition grantData (c : OAuthClient) (g : Grant) : url.Values :=
  match g with
  | AuthorizationCode code => ExchangeCode_data c code
  | RefreshGrant refreshToken => RefreshToken_data refreshToken
  | ClientCredentialsGrant => ClientCredentials_data
  end.

(** The request a grant exchange sends. *)
Definition grantRequest (c : OAuthClient) (g : Grant) : http.Request :=
  buildRequest c (tokenURL_of c) (grantData c g).

Definition exchange (c : OAuthClient) (g : Grant) (w : World) : Result Token * World :=
  match g with
  | AuthorizationCode code => OAuthClient_ExchangeCode c code w
  | RefreshGrant refreshToken => OAuthClient_RefreshToken c refreshToken w
  | ClientCredentialsGrant => OAuthClient_ClientCredentials c w
  end.

(** *** TokenManager *)

Record TokenManager := {
  oauth : OAuthClient;
  token : option Token;
  onTokenRefresh : option Callback
}.

Definition NewTokenManager (oauth : OAuthClient) (initialToken : option Token)
  : TokenManager :=
  {| oauth := oauth; token := initialToken; onTokenRefresh := None |}.

(** [m.SetRefreshCallback(cb)] *)
Definition TokenManager_SetRefreshCallback (m : TokenManager) (cb : option Callback)
  : TokenManager :=
  {| oauth := oauth m; token := token m; onTokenRefresh := cb |}.

(** The assignment [m.token = newToken]. *)
Definition setToken (m : TokenManager) (newToken : Token) : TokenManager :=
  {| oauth := oauth m; token := Some newToken; onTokenRefresh := onTokenRefresh m |}.

(** The call [m.onTokenRefresh(newToken)]. *)
Definition notify (cb : Callback) (newToken : Token) (w : World) : World :=
  {| clock := clock w;
     store := cb newToken (store w);
     trace := trace w ++ [Notified newToken] |}.

(** [m.GetToken(ctx)]: the result, the manager and the world after the call.
    The last statement returns [m.token], which is [newToken] since the
    assignment two statements before. *)
Definition TokenManager_GetToken (m : TokenManager) (w : World)
  : Result Token * TokenManager * World :=
  match token m with
  | None => (Err (errorString "no token available"), m, w)
  | Some t =>
      if negb (Token_IsExpired t (Now w)) then (Ok t, m, w)
      else if String.eqb (RefreshToken t) "" then
        (Err (errorString "token expired and no refresh token available"), m, w)
      else
        match OAuthClient_RefreshToken (oauth m) (RefreshToken t) w with
        | (Err err, w) => (Err (wrapError "refreshing token: " err), m, w)
        | (Ok newToken, w) =>
            let m := setToken m newToken in
            let w := match onTokenRefresh m with
                     | Some cb => notify cb newToken w
                     | None => w
                     end in
            (Ok newToken, m, w)
        end
  end.

(** *** Calls one after another

    Time passing between two calls: [d] nanoseconds. *)
Definition wait (d : N) (w : World) : World :=
  {| clock := clock w + Z.of_N d; store := store w; trace := trace w |}.

(** One [GetToken] call after each delay, each on the manager and the world
    the previous one left. *)
Fixpoint GetToken_seq (delays : list N) (m : TokenManager) (w : World)
  : list (Result Token) * TokenManager * World :=
  match delays with
  | [] => ([], m, w)
  | d :: delays =>
      let '(r, m, w) := TokenManager_GetToken m (wait d w) in
      let '(rs, m, w) := GetToken_seq delays m w in
      (r :: rs, m, w)
  end.

(** The requests on a trace, and the callback invocations. *)
Definition requests (tr : list Event) : list http.Request :=
  omap (fun e => match e with Sent req => Some req | Notified _ => None end) tr.


(** *** Overlapping calls

    [GetToken] takes no lock; callers that overlap interleave at its
    statements.  A caller is at one of the statements of [GetToken]; each
    statement reads [m.token] as the manager holds it at that moment.
    [m.token] is non-nil after the first test and is only ever assigned a new
    Token; [Panicked] stands for the nil dereference. *)
Inductive PC :=
| AtNilCheck
| AtExpiryCheck
| AtRefreshCheck
| AtRefreshCall
| AtErrCheck (r : Result Token)
| AtAssign (newToken : Token)
| AtNotify (newToken : Token)
| AtReturn
| Returned (r : Result Token)
| Panicked.

(** One statement of one caller. *)
Definition step (pc : PC) (m : TokenManager) (w : World) : PC * TokenManager * World :=
  match pc with
  | AtNilCheck =>
      match token m with
      | None => (Returned (Err (errorString "no token available")), m, w)
      | Some _ => (AtExpiryCheck, m, w)
      end
  | AtExpiryCheck =>
      match token m with
      | None => (Panicked, m, w)
      | Some t =>
          if negb (Token_IsExpired t (Now w)) then (Returned (Ok t), m, w)
          else (AtRefreshCheck, m, w)
      end
  | AtRefreshCheck =>
      match token m with
      | None => (Panicked, m, w)
      | Some t =>
          if String.eqb (RefreshToken t) "" then
            (Returned (Err (errorString "token expired and no refresh token available")), m, w)
          else (AtRefreshCall, m, w)
      end
  | AtRefreshCall =>
      match token m with
      | None => (Panicked, m, w)
      | Some t =>
          let (r, w) := OAuthClient_RefreshToken (oauth m) (RefreshToken t) w in
          (AtErrCheck r, m, w)
      end
  | AtErrCheck (Err err) => (Returned (Err (wrapError "refreshing token: " err)), m, w)
  | AtErrCheck (Ok newToken) => (AtAssign newToken, m, w)
  | AtAssign newToken => (AtNotify newToken, setToken m newToken, w)
  | AtNotify newToken =>
      (AtReturn, m,
       match onTokenRefresh m with
       | Some cb => notify cb newToken w
       | None => w
       end)
  | AtReturn =>
      match token m with
      | None => (Panicked, m, w)
      | Some t => (Returned (Ok t), m, w)
      end
  | Returned r => (Returned r, m, w)
  | Panicked => (Panicked, m, w)
  end.

(** [k] statements of one caller, run without interruption. *)
Fixpoint steps (k : nat) (pc : PC) (m : TokenManager) (w : World)
  : PC * TokenManager * World :=
  match k with
  | O => (pc, m, w)
  | S k => let '(pc, m, w) := step pc m w in steps k pc m w
  end.

(** The callers, the manager they share and the world. *)
Definition Config : Type := list PC * TokenManager * World.

(** Caller [i] runs its next statement. *)
Definition schedule_step (cfg : Config) (i : nat) : Config :=
  let '(pcs, m, w) := cfg in
  match pcs !! i with
  | None => cfg
  | Some pc =>
      let '(pc, m, w) := step pc m w in
      (<[i := pc]> pcs, m, w)
  end.

(** A schedule names the caller that moves, statement after statement. *)
Definition run (schedule : list nat) (cfg : Config) : Config :=
  fold_left schedule_step schedule cfg.

(** A caller that has not passed the nil test, or has returned. *)
Definition idle (pc : PC) : bool :=
  match pc with
  | AtNilCheck | Returned _ => true
  | _ => false
  end.

Definition panicked (pc : PC) : bool :=
  match pc with
  | Panicked => true
  | _ => false
  end.

(** No caller has panicked, and while the manager holds no Token no caller
    is past the nil test. *)
Definition safe (cfg : Config) : Prop :=
  let '(pcs, m, _) := cfg in
  Forall (fun pc => panicked pc = false) pcs
  /\ (token m = None -> Forall (fun pc => idle pc = true) pcs).

(** [n] callers about to enter [GetToken]. *)
Definition callers (n : nat) : list PC := replicate n AtNilCheck.



End Lifecycle.


(** ** A client, tokens and token endpoints to run the code on *)

Module Demo.

Definition dq : string := String (ascii_of_N 34) EmptyString.

Definition quoted (s : string) : string := dq +:+ s +:+ dq.

Definition cfg : OAuthConfig :=
  {| ClientID := "abc"; ClientSecret := "s3cret";
     RedirectURL := "http://localhost/cb"; Sandbox := false; Scopes := [] |}.

Definition client : OAuthClient := NewOAuthClient cfg.

(** A token response with an integer lifetime. *)
Definition tokenBody (access refresh : string) (lifetime : Z) : http.ResponseBody :=
  {| http.raw :=
       "{" +:+ quoted "access_token" +:+ ":" +:+ quoted access +:+ ","
           +:+ quoted "token_type" +:+ ":" +:+ quoted "Bearer" +:+ ","
           +:+ quoted "refresh_token" +:+ ":" +:+ quoted refresh +:+ ","
           +:+ quoted "expires_in" +:+ ":" +:+ pretty lifetime +:+ "}";
     http.reading :=
       Some (json.Object
               [("access_token", json.Str access);
                ("token_type", json.Str "Bearer");
                ("refresh_token", json.Str refresh);
                ("expires_in", json.Num (json.Integer lifetime))]) |}.

(** A token response that gives the lifetime as a string. *)
Definition stringLifetimeBody : http.ResponseBody :=
  {| http.raw :=
       "{" +:+ quoted "access_token" +:+ ":" +:+ quoted "A1" +:+ ","
           +:+ quoted "expires_in" +:+ ":" +:+ quoted "3600" +:+ "}";
     http.reading :=
       Some (json.Object
               [("access_token", json.Str "A1");
                ("expires_in", json.Str "3600")]) |}.

(** An endpoint that answers every request with the same response, 150 ms
    later. *)
Definition answering (sc : Z) (st : string) (body : http.ResponseBody)
  : list Event -> http.Request -> http.Reply :=
  fun _ _ => {| http.elapsed := 150000000; http.outcome := http.Response sc st body |}.

(** An endpoint that answers at once. *)
Definition instant (body : http.ResponseBody)
  : list Event -> http.Request -> http.Reply :=
  fun _ _ => {| http.elapsed := 0; http.outcome := http.Response 200 "200 OK" body |}.

(** An endpoint that is down. *)
Definition down : list Event -> http.Request -> http.Reply :=
  fun _ _ => {| http.elapsed := 30000000000;
                http.outcome := http.DoFailed (errorString "context deadline exceeded") |}.

(** An endpoint that issues a new Token per refresh: [A1] to the first
    request, [A2] to every later one. *)
Definition rotating : list Event -> http.Request -> http.Reply :=
  fun tr _ =>
    {| http.elapsed := 150000000;
       http.outcome :=
         http.Response 200 "200 OK"
           match tr with
           | [] => tokenBody "A1" "R1" 43200
           | _ => tokenBody "A2" "R2" 43200
           end |}.

(** A clock reading in the year 2025, in nanoseconds since the zero instant. *)
Definition today : time.Time := 63900000000000000000.

Definition tokenExpiringIn (d : time.Duration) (refresh : string) : Token :=
  {| AccessToken := "A0"; TokenType := "Bearer"; RefreshToken := refresh;
     ExpiresIn := 43200; Scope := ""; ExpiresAt := time.Add today d |}.

(** One minute left: expired. *)
Definition stale : Token := tokenExpiringIn (1 * time.Minute) "R0".

(** The same without a refresh credential. *)
Definition staleNoRefresh : Token := tokenExpiringIn (1 * time.Minute) "".

(** Twelve hours left. *)
Definition fresh : Token := tokenExpiringIn (720 * time.Minute) "R0".

(** A callback that keeps every Token it is given. *)
Definition remember : @Callback (list Token) := fun t kept => t :: kept.

Definition world : @World (list Token) :=
  {| clock := today; store := []; trace := [] |}.

Definition manager (t : option Token) : @TokenManager (list Token) :=
  TokenManager_SetRefreshCallback (NewTokenManager client t) (Some remember).

(** The fields a [tokenBody] decodes to. *)
Definition decoded (access refresh : string) (lifetime : Z) : Token :=
  {| AccessToken := access; TokenType := "Bearer"; RefreshToken := refresh;
     ExpiresIn := lifetime; Scope := ""; ExpiresAt := time.zero |}.

(** The Token a [tokenBody] gives when it is received at [received]. *)
Definition issued (access refresh : string) (lifetime : Z) (received : time.Time)
  : Token :=
  setExpiresAt (received + lifetime * 1000000000) (decoded access refresh lifetime).

(** The request that refreshes [stale]. *)
Definition refreshRequest : http.Request :=
  grantRequest client (RefreshGrant "R0").


End Demo.


(** * Properties *)

(** ** The authorization URL *)

Lemma Join_cons_cons (a b : string) (rest : list string) (sep : string) :
  strings.Join (a :: b :: rest) sep = a +:+ sep +:+ strings.Join (b :: rest) sep.
Proof. reflexivity. Qed.

(** The keys [AuthURL] sets, sorted. *)
Lemma AuthURL_sorted_keys (c : OAuthClient) (state : string) :
  url.sorted_keys (AuthURL_params c state) =
  match Scopes (config c) with
  | [] => ["client_id"; "redirect_uri"; "response_type"; "state"]
  | _ => ["client_id"; "redirect_uri"; "response_type"; "scope"; "state"]
  end.
Proof.
  unfold AuthURL_params.
  destruct (Scopes (config c)) as [|s0 ss]; vm_compute; reflexivity.
Qed.

Example AuthURL_example :
  OAuthClient_AuthURL
    (NewOAuthClient {| ClientID := "abc"; ClientSecret := "s3cret";
                       RedirectURL := "http://localhost/cb";
                       Sandbox := false; Scopes := [] |}) "xyz"
  = "https://wise.com/oauth/authorize?client_id=abc&redirect_uri=http%3A%2F%2Flocalhost%2Fcb&response_type=code&state=xyz".
Proof. vm_compute. reflexivity. Qed.

Lemma AuthURL_shape (c : OAuthClient) (state : string) :
  OAuthClient_AuthURL c state =
    (if Sandbox (config c) then SandboxAuthURL else ProductionAuthURL) +:+ "?" +:+
    "client_id=" +:+ url.QueryEscape (ClientID (config c)) +:+
    "&redirect_uri=" +:+ url.QueryEscape (RedirectURL (config c)) +:+
    "&response_type=code" +:+
    match Scopes (config c) with
    | [] => ""
    | _ => "&scope=" +:+ url.QueryEscape (strings.Join (Scopes (config c)) " ")
    end +:+
    "&state=" +:+ url.QueryEscape state.
Proof.
  unfold OAuthClient_AuthURL, url.Values_Encode.
  rewrite AuthURL_sorted_keys.
  unfold AuthURL_params.
  destruct (Scopes (config c)) as [|s0 ss]; destruct (Sandbox (config c));
    vm_compute; reflexivity.
Qed.

(** One escaped byte is read back as the byte. *)
Lemma QueryUnescape_escaped_byte (c : ascii) (rest : string) :
  url.QueryUnescape (url.QueryEscape (String c rest)) =
  String c <$> url.QueryUnescape (url.QueryEscape rest).
Proof.
  destruct c as [[] [] [] [] [] [] [] []]; reflexivity.
Qed.

Lemma QueryUnescape_QueryEscape (s : string) :
  url.QueryUnescape (url.QueryEscape s) = Some s.
Proof.
  induction s as [|c s IH].
  - reflexivity.
  - rewrite QueryUnescape_escaped_byte, IH. reflexivity.
Qed.

(** *** The query read back *)

Lemma ContainsByte_app (a b : string) (c : ascii) :
  strings.ContainsByte (a +:+ b) c
  = strings.ContainsByte a c || strings.ContainsByte b c.
Proof.
  induction a as [|x a IH]; [reflexivity|].
  simpl. rewrite IH. apply orb_assoc.
Qed.

Lemma Cut_app (k rest : string) (sep : ascii) :
  strings.ContainsByte k sep = false ->
  strings.Cut (k +:+ String sep rest) sep = (k, rest).
Proof.
  induction k as [|x k IH]; simpl.
  - rewrite Ascii.eqb_refl. reflexivity.
  - intros H. apply orb_false_elim in H as [Hx Hk].
    rewrite Hx, (IH Hk). reflexivity.
Qed.

Lemma segments_one (a : string) :
  strings.ContainsByte a "&" = false -> url.segments a = [a].
Proof.
  induction a as [|x a IH]; [reflexivity|]. simpl.
  intros H. apply orb_false_elim in H as [Hx Ha].
  rewrite Hx, (IH Ha). reflexivity.
Qed.

Lemma segments_cons (a b : string) :
  strings.ContainsByte a "&" = false ->
  url.segments (a +:+ String "&" b) = a :: url.segments b.
Proof.
  induction a as [|x a IH]; [reflexivity|]. simpl.
  intros H. apply orb_false_elim in H as [Hx Ha].
  rewrite Hx, (IH Ha). reflexivity.
Qed.

Lemma segments_Join (segs : list string) :
  Forall (fun s => strings.ContainsByte s "&" = false) segs ->
  segs <> [] ->
  url.segments (strings.Join segs "&") = segs.
Proof.
  induction segs as [|s [|s' rest] IH]; intros Hclean Hne.
  - contradiction.
  - apply segments_one. exact (Forall_inv Hclean).
  - change (strings.Join (s :: s' :: rest) "&")
      with (s +:+ String "&" (strings.Join (s' :: rest) "&")).
    rewrite segments_cons by exact (Forall_inv Hclean).
    rewrite IH; [reflexivity | exact (Forall_inv_tail Hclean) | discriminate].
Qed.

(** An escaped string has none of the separators of a query. *)
Lemma QueryEscape_clean (s : string) :
  strings.ContainsByte (url.QueryEscape s) "&" = false
  /\ strings.ContainsByte (url.QueryEscape s) ";" = false
  /\ strings.ContainsByte (url.QueryEscape s) "=" = false.
Proof.
  induction s as [|c s (IH1 & IH2 & IH3)]; [repeat split|].
  destruct c as [[] [] [] [] [] [] [] []]; cbn; auto.
Qed.

(** [parseQuery] undoes what [Encode] writes for one value. *)
Lemma parseSegment_pair (m : url.Values) (k v : string) :
  url.parseSegment m (url.pair k v) = url.Values_Add k v m.
Proof.
  unfold url.parseSegment, url.pair.
  destruct (QueryEscape_clean k) as (_ & Hk2 & Hk3).
  destruct (QueryEscape_clean v) as (_ & Hv2 & _).
  rewrite !ContainsByte_app, Hk2, Hv2.
  change ("=" +:+ url.QueryEscape v) with (String "=" (url.QueryEscape v)).
  replace (String.eqb (url.QueryEscape k +:+ String "=" (url.QueryEscape v)) "")
    with false by (destruct (url.QueryEscape k); reflexivity).
  cbn [orb strings.ContainsByte].
  rewrite (Cut_app _ _ _ Hk3), !QueryUnescape_QueryEscape. reflexivity.
Qed.

(** A query written pair by pair is read back pair by pair. *)
Lemma ParseQuery_pairs (pairs : list (string * string)) :
  url.ParseQuery (strings.Join (map (fun kv => url.pair kv.1 kv.2) pairs) "&")
  = fold_left (fun m kv => url.Values_Add kv.1 kv.2 m) pairs ∅.
Proof.
  unfold url.ParseQuery.
  destruct pairs as [|kv pairs]; [reflexivity|].
  rewrite segments_Join.
  - generalize (∅ : url.Values). generalize (kv :: pairs). clear.
    intros l. induction l as [|x l IH]; intros m; [reflexivity|].
    cbn [map fold_left]. rewrite parseSegment_pair. apply IH.
  - apply Forall_map, Forall_forall. intros [k v] _. unfold url.pair. cbn [fst snd].
    rewrite !ContainsByte_app. cbn [strings.ContainsByte].
    destruct (QueryEscape_clean k) as (-> & _), (QueryEscape_clean v) as (-> & _).
    reflexivity.
  - discriminate.
Qed.

(** The pairs [AuthURL] writes, in the order [Encode] writes them. *)
Lemma AuthURL_pairs (c : OAuthClient) (state : string) :
  url.Values_Encode (AuthURL_params c state) =
  strings.Join
    (map (fun kv => url.pair kv.1 kv.2)
       ([("client_id", ClientID (config c));
         ("redirect_uri", RedirectURL (config c));
         ("response_type", "code")]
        ++ match Scopes (config c) with
           | [] => []
           | _ => [("scope", strings.Join (Scopes (config c)) " ")]
           end
        ++ [("state", state)])) "&".
Proof.
  unfold url.Values_Encode. rewrite AuthURL_sorted_keys.
  unfold AuthURL_params.
  destruct (Scopes (config c)) as [|s0 ss]; vm_compute; reflexivity.
Qed.

(** C8. The authorization URL is the authorize endpoint of the configured
    environment, a question mark, and the parameters [client_id],
    [redirect_uri], [response_type=code] and [state] in urlencoded form, in
    the sorted order of [Encode]; a [scope] parameter holding the scopes
    joined by spaces is present exactly when scopes are configured.  Read
    back by [url.ParseQuery], the query holds exactly these parameters with
    the configured values. *)
Theorem AuthURL_parameters (c : OAuthClient) (state : string) :
  OAuthClient_AuthURL c state =
    (if Sandbox (config c) then SandboxAuthURL else ProductionAuthURL) +:+ "?" +:+
    "client_id=" +:+ url.QueryEscape (ClientID (config c)) +:+
    "&redirect_uri=" +:+ url.QueryEscape (RedirectURL (config c)) +:+
    "&response_type=code" +:+
    match Scopes (config c) with
    | [] => ""
    | _ => "&scope=" +:+ url.QueryEscape (strings.Join (Scopes (config c)) " ")
    end +:+
    "&state=" +:+ url.QueryEscape state
  /\ OAuthClient_AuthURL c state =
     (if Sandbox (config c) then SandboxAuthURL else ProductionAuthURL) +:+ "?" +:+
     url.Values_Encode (AuthURL_params c state)
  /\ url.ParseQuery (url.Values_Encode (AuthURL_params c state)) =
     list_to_map
       ([("client_id", [ClientID (config c)]);
         ("redirect_uri", [RedirectURL (config c)]);
         ("response_type", ["code"]);
         ("state", [state])]
        ++ match Scopes (config c) with
           | [] => []
           | _ => [("scope", [strings.Join (Scopes (config c)) " "])]
           end).
Proof.
  split; [apply AuthURL_shape|]. split; [reflexivity|].
  rewrite AuthURL_pairs, ParseQuery_pairs.
  destruct (Scopes (config c)) as [|s0 ss]; vm_compute; reflexivity.
Qed.

(** ** Expiry *)

Lemma IsExpired_spec (t : Token) (now : time.Time) :
  Token_IsExpired t now = (ExpiresAt t <? now + 300000000000).
Proof. reflexivity. Qed.

(** Once expired, always expired. *)
Lemma IsExpired_mono (t : Token) (now later : time.Time) :
  now <= later -> Token_IsExpired t now = true -> Token_IsExpired t later = true.
Proof. rewrite !IsExpired_spec, !Z.ltb_lt. lia. Qed.

(** Fresh later, fresh before. *)
Lemma fresh_before (t : Token) (now later : time.Time) :
  now <= later -> Token_IsExpired t later = false -> Token_IsExpired t now = false.
Proof. rewrite !IsExpired_spec, !Z.ltb_ge. lia. Qed.

(** C1, as the code has it.  [IsExpired] is true exactly when the current
    time plus the five-minute buffer is strictly after [ExpiresAt] (less than
    five minutes remain); a Token that expires in one hour is not expired,
    one that expires in two minutes is, and the zero Token is expired at
    every clock reading [n] nanoseconds after the zero instant. *)
Theorem IsExpired_buffer (t : Token) (now : time.Time) (n : N) :
  Token_IsExpired t now = (ExpiresAt t <? now + 5 * time.Minute)
  /\ Token_IsExpired (setExpiresAt (time.Add now (60 * time.Minute)) t) now = false
  /\ Token_IsExpired (setExpiresAt (time.Add now (2 * time.Minute)) t) now = true
  /\ Token_IsExpired zeroToken (Z.of_N n) = true.
Proof.
  repeat split.
  - rewrite IsExpired_spec. cbn [setExpiresAt ExpiresAt]. unfold time.Add.
    apply Z.ltb_ge. change (60 * time.Minute) with 3600000000000. lia.
  - rewrite IsExpired_spec. cbn [setExpiresAt ExpiresAt]. unfold time.Add.
    apply Z.ltb_lt. change (2 * time.Minute) with 120000000000. lia.
  - rewrite IsExpired_spec. cbn [zeroToken ExpiresAt]. unfold time.zero.
    apply Z.ltb_lt. lia.
Qed.

(** C1, as stated, fails on the edge of the buffer: with exactly five
    minutes left, the current time plus the buffer is at the expiry instant,
    and the Token is not expired. *)
Lemma IsExpired_edge_of_buffer :
  let now : time.Time := 63900000000000000000 in
  let t := setExpiresAt (time.Add now (5 * time.Minute)) zeroToken in
  ExpiresAt t <= time.Add now (5 * time.Minute) /\ Token_IsExpired t now = false.
Proof. split; [cbn; lia | reflexivity]. Qed.

(** ** Decoding *)

Lemma storeField_error (f : field) (v : json.Value) (t : Token) (saved : option error) :
  snd (storeField f v (t, saved)) =
  match saved with
  | Some e => Some e
  | None => if fits f v then None else Some (UnmarshalTypeError v (field_name f))
  end.
Proof.
  destruct v as [|b|[z|lit]|s|elems|members], f, saved; cbn;
    try reflexivity; destruct (fitsInt z); reflexivity.
Qed.

(** An error, once saved, stays. *)
Lemma decode_error_sticky (members : list (string * json.Value)) (t : Token) (e : error) :
  exists t', fold_left storeMember members (t, Some e) = (t', Some e).
Proof.
  revert t. induction members as [|[k v] members IH]; intros t.
  - exists t. reflexivity.
  - cbn [fold_left]. unfold storeMember at 2. cbn [fst snd].
    destruct (findField k) as [f|]; [|apply IH].
    pose proof (storeField_error f v t (Some e)) as H.
    destruct (storeField f v (t, Some e)) as [t1 e1]. cbn in H. subst e1. apply IH.
Qed.

(** A response object decodes without error exactly when each of its
    members does. *)
Lemma decodeToken_object_ok (members : list (string * json.Value)) (dst : Token) :
  snd (decodeToken (json.Object members) dst) = None
  <-> forallb memberFits members = true.
Proof.
  cbn [decodeToken]. revert dst.
  induction members as [|[k v] members IH]; intros dst.
  - cbn. tauto.
  - cbn [fold_left forallb]. unfold storeMember at 2, memberFits at 1. cbn [fst snd].
    destruct (findField k) as [f|]; [|apply IH].
    pose proof (storeField_error f v dst None) as H.
    destruct (storeField f v (dst, None)) as [t1 e1]. cbn [snd] in H. subst e1.
    destruct (fits f v); cbn [andb].
    + apply IH.
    + destruct (decode_error_sticky members t1 (UnmarshalTypeError v (field_name f)))
        as [t' ->]. cbn. split; discriminate.
Qed.

(** ** The token endpoint *)

Section LifecycleProperties.

Context {Ext : Type}.
Variable transport : list Event -> http.Request -> http.Reply.

Abbreviation World := (@World Ext).
Abbreviation TokenManager := (@TokenManager Ext).
Abbreviation tokenRequest := (OAuthClient_tokenRequest transport).
Abbreviation RefreshToken_call := (OAuthClient_RefreshToken transport).
Abbreviation GetToken := (TokenManager_GetToken transport).

Lemma time_mul_exact (n : Z) :
  -9223372036 <= n <= 9223372036 ->
  time.mul n time.Second = n * 1000000000.
Proof.
  intros Hn. unfold time.mul, time.int64, time.Second.
  rewrite Z.mod_small by lia. lia.
Qed.

(** Whatever the result, the world after [tokenRequest] is the world after
    the exchange. *)
Lemma tokenRequest_world c tokenURL data (w : World) :
  snd (tokenRequest c tokenURL data w) =
  exchanged (buildRequest c tokenURL data)
    (transport (trace w) (buildRequest c tokenURL data)) w.
Proof.
  unfold OAuthClient_tokenRequest.
  destruct (http.outcome _) as [e|e|sc st e|sc st body]; try reflexivity.
  destruct (400 <=? sc); [reflexivity|].
  destruct (Unmarshal body zeroToken) as [tok [e|]]; reflexivity.
Qed.

(** A status of 400 or more is an error that carries the status line and
    the body. *)
Lemma tokenRequest_status_error c tokenURL data (w : World) sc st body :
  http.outcome (transport (trace w) (buildRequest c tokenURL data))
    = http.Response sc st body ->
  400 <= sc ->
  fst (tokenRequest c tokenURL data w) =
  Err (errorString ("token request failed: " +:+ st +:+ " - " +:+ http.raw body)).
Proof.
  intros Ho Hsc. unfold OAuthClient_tokenRequest. rewrite Ho.
  destruct (400 <=? sc) eqn:E; [reflexivity|]. apply Z.leb_gt in E. lia.
Qed.

(** A status below 400 with a body that does not decode is a parse error. *)
Lemma tokenRequest_parse_error c tokenURL data (w : World) sc st body tok err :
  http.outcome (transport (trace w) (buildRequest c tokenURL data))
    = http.Response sc st body ->
  sc < 400 ->
  Unmarshal body zeroToken = (tok, Some err) ->
  fst (tokenRequest c tokenURL data w) =
  Err (wrapError "parsing token response: " err).
Proof.
  intros Ho Hsc Hu. unfold OAuthClient_tokenRequest. rewrite Ho.
  destruct (400 <=? sc) eqn:E; [apply Z.leb_le in E; lia|].
  rewrite Hu. reflexivity.
Qed.

(** A status below 400 with a body that decodes is a Token, stamped with the
    clock as it reads once the response is in. *)
Lemma tokenRequest_decoded c tokenURL data (w : World) sc st body tok :
  http.outcome (transport (trace w) (buildRequest c tokenURL data))
    = http.Response sc st body ->
  sc < 400 ->
  Unmarshal body zeroToken = (tok, None) ->
  tokenRequest c tokenURL data w =
  (Ok (setExpiresAt
         (time.Add (clock w + Z.of_N (http.elapsed
                      (transport (trace w) (buildRequest c tokenURL data))))
                   (time.mul (ExpiresIn tok) time.Second)) tok),
   {| clock := clock w + Z.of_N (http.elapsed
                 (transport (trace w) (buildRequest c tokenURL data)));
      store := store w;
      trace := trace w ++ [Sent (buildRequest c tokenURL data)] |}).
Proof.
  intros Ho Hsc Hu. unfold OAuthClient_tokenRequest, exchanged, Now. rewrite Ho.
  destruct (400 <=? sc) eqn:E; [apply Z.leb_le in E; lia|].
  rewrite Hu. reflexivity.
Qed.


(** ** GetToken, statement by statement *)

Lemma GetToken_no_token (m : TokenManager) (w : World) :
  token m = None ->
  GetToken m w = (Err (errorString "no token available"), m, w).
Proof. intros H. unfold TokenManager_GetToken. rewrite H. reflexivity. Qed.

Lemma GetToken_fresh (m : TokenManager) (w : World) t :
  token m = Some t ->
  Token_IsExpired t (Now w) = false ->
  GetToken m w = (Ok t, m, w).
Proof. intros H E. unfold TokenManager_GetToken. rewrite H, E. reflexivity. Qed.

Lemma GetToken_no_refresh_token (m : TokenManager) (w : World) t :
  token m = Some t ->
  Token_IsExpired t (Now w) = true ->
  RefreshToken t = "" ->
  GetToken m w =
  (Err (errorString "token expired and no refresh token available"), m, w).
Proof.
  intros H E R. unfold TokenManager_GetToken. rewrite H, E, R. reflexivity.
Qed.

Lemma GetToken_refresh_err (m : TokenManager) (w w1 : World) t err :
  token m = Some t ->
  Token_IsExpired t (Now w) = true ->
  RefreshToken t <> "" ->
  RefreshToken_call (oauth m) (RefreshToken t) w = (Err err, w1) ->
  GetToken m w = (Err (wrapError "refreshing token: " err), m, w1).
Proof.
  intros H E R C. unfold TokenManager_GetToken. rewrite H, E. cbn.
  destruct (String.eqb_spec (RefreshToken t) ""); [contradiction|].
  rewrite C. reflexivity.
Qed.

Lemma GetToken_refresh_ok (m : TokenManager) (w w1 : World) t newToken :
  token m = Some t ->
  Token_IsExpired t (Now w) = true ->
  RefreshToken t <> "" ->
  RefreshToken_call (oauth m) (RefreshToken t) w = (Ok newToken, w1) ->
  GetToken m w =
  (Ok newToken, setToken m newToken,
   match onTokenRefresh m with
   | Some cb => notify cb newToken w1
   | None => w1
   end).
Proof.
  intros H E R C. unfold TokenManager_GetToken. rewrite H, E. cbn.
  destruct (String.eqb_spec (RefreshToken t) ""); [contradiction|].
  rewrite C. reflexivity.
Qed.

(** ** Calls one after another *)

Lemma wait_wait (d1 d2 : N) (w : World) :
  wait d2 (wait d1 w) = wait (d1 + d2) w.
Proof. unfold wait. cbn. f_equal. lia. Qed.

Lemma wait_0 (w : World) : wait 0 w = w.
Proof. destruct w. unfold wait. cbn. f_equal. lia. Qed.

Lemma clock_wait (d : N) (w : World) : clock w <= clock (wait d w).
Proof. cbn. lia. Qed.

(** A fresh Token is handed out as it is, however often it is asked for. *)
Lemma GetToken_seq_fresh (delays : list N) (m : TokenManager) (w : World) t :
  token m = Some t ->
  Token_IsExpired t (Now (wait (foldr N.add 0%N delays) w)) = false ->
  GetToken_seq transport delays m w =
  (replicate (length delays) (Ok t), m, wait (foldr N.add 0%N delays) w).
Proof.
  intros Ht. revert w.
  induction delays as [|d ds IH]; intros w Hfresh.
  - cbn. rewrite wait_0. reflexivity.
  - cbn [GetToken_seq foldr length replicate].
    cbn [foldr] in Hfresh. rewrite <- wait_wait in Hfresh.
    rewrite (GetToken_fresh m (wait d w) t Ht).
    + rewrite (IH (wait d w) Hfresh). rewrite wait_wait. reflexivity.
    + eapply fresh_before; [|exact Hfresh]. apply clock_wait.
Qed.

(** C9. With no Token ever set, [GetToken] fails with the error "no token
    available"; the manager and the world, hence the requests sent, are as
    before. *)
Theorem GetToken_without_token (m : TokenManager) (w : World) :
  token m = None ->
  GetToken m w = (Err (errorString "no token available"), m, w).
Proof. apply GetToken_no_token. Qed.

(** C5. With an expired Token that has no refresh credential, [GetToken]
    fails with the error "token expired and no refresh token available";
    nothing is sent and the stored Token stays. *)
Theorem GetToken_refresh_unavailable (m : TokenManager) (w : World) t :
  token m = Some t ->
  Token_IsExpired t (Now w) = true ->
  RefreshToken t = "" ->
  GetToken m w =
    (Err (errorString "token expired and no refresh token available"), m, w)
  /\ requests (trace (snd (GetToken m w))) = requests (trace w)
  /\ token (snd (fst (GetToken m w))) = Some t.
Proof.
  intros Ht He Hr.
  rewrite (GetToken_no_refresh_token m w t Ht He Hr). cbn. auto.
Qed.

(** C6. A Token that is not expired is returned as it is: the manager is
    unchanged and so are the trace and the store.  Any number of calls, as
    long as the Token stays fresh until the last one, return that same Token
    and leave the same manager, trace and store. *)
Theorem GetToken_fresh_read (m : TokenManager) (w : World) t (delays : list N) :
  token m = Some t ->
  Token_IsExpired t (Now (wait (foldr N.add 0%N delays) w)) = false ->
  GetToken m w = (Ok t, m, w)
  /\ GetToken_seq transport delays m w =
     (replicate (length delays) (Ok t), m, wait (foldr N.add 0%N delays) w)
  /\ trace (wait (foldr N.add 0%N delays) w) = trace w
  /\ store (wait (foldr N.add 0%N delays) w) = store w.
Proof.
  intros Ht Hfresh. repeat split.
  - apply GetToken_fresh; [exact Ht|].
    eapply fresh_before; [|exact Hfresh]. apply clock_wait.
  - apply GetToken_seq_fresh; assumption.
Qed.

(** C3. When the refresh fails, [GetToken] returns the client's error
    wrapped; the manager is unchanged and still holds the stale Token, so a
    later call refreshes again, and returns the new Token if that refresh
    succeeds. *)
Theorem GetToken_refresh_failure (m : TokenManager) (w w1 : World) t err :
  token m = Some t ->
  Token_IsExpired t (Now w) = true ->
  RefreshToken t <> "" ->
  RefreshToken_call (oauth m) (RefreshToken t) w = (Err err, w1) ->
  GetToken m w = (Err (wrapError "refreshing token: " err), m, w1)
  /\ token (snd (fst (GetToken m w))) = Some t
  /\ forall (w2 w3 : World) newToken,
       clock w1 <= clock w2 ->
       RefreshToken_call (oauth m) (RefreshToken t) w2 = (Ok newToken, w3) ->
       fst (fst (GetToken (snd (fst (GetToken m w))) w2)) = Ok newToken.
Proof.
  intros Ht He Hr Hc.
  rewrite (GetToken_refresh_err m w w1 t err Ht He Hr Hc). cbn.
  repeat split; [exact Ht|].
  intros w2 w3 newToken Hlater Hc2.
  assert (clock w <= clock w1) as Hw1.
  { pose proof (tokenRequest_world (oauth m) (tokenURL_of (oauth m))
                  (RefreshToken_data (RefreshToken t)) w) as Hw.
    unfold OAuthClient_RefreshToken in Hc. rewrite Hc in Hw. cbn [snd] in Hw.
    subst w1. cbn. lia. }
  rewrite (GetToken_refresh_ok m w2 w3 t newToken Ht); try assumption.
  - reflexivity.
  - eapply IsExpired_mono; [|exact He]. unfold Now. lia.
Qed.


(** ** The grant exchanges *)

Lemma exchange_tokenRequest (c : OAuthClient) (g : Grant) (w : World) :
  exchange transport c g w = tokenRequest c (tokenURL_of c) (grantData c g) w.
Proof. destruct g; reflexivity. Qed.

(** C7, as the code has it.  For each of the three grants, once the token
    endpoint has answered with a status and a body: a status of 400 or more
    gives the error "token request failed" with the status line and the raw
    body; a status below 400 gives a Token when the body decodes as a token
    response, with [ExpiresAt] the clock reading on receipt plus
    [expires_in] seconds (for a lifetime whose nanoseconds fit 64 bits), and
    a parse error when the body does not decode. *)
Theorem grant_exchange_outcome (c : OAuthClient) (g : Grant) (w : World) sc st body :
  http.outcome (transport (trace w) (grantRequest c g)) = http.Response sc st body ->
  (400 <= sc ->
   fst (exchange transport c g w) =
   Err (errorString ("token request failed: " +:+ st +:+ " - " +:+ http.raw body)))
  /\ (sc < 400 ->
      forall tok,
        Unmarshal body zeroToken = (tok, None) ->
        -9223372036 <= ExpiresIn tok <= 9223372036 ->
        fst (exchange transport c g w) =
        Ok (setExpiresAt
              (Now (snd (exchange transport c g w)) + ExpiresIn tok * time.Second)
              tok))
  /\ (sc < 400 ->
      forall tok err,
        Unmarshal body zeroToken = (tok, Some err) ->
        fst (exchange transport c g w) = Err (wrapError "parsing token response: " err)).
Proof.
  intros Ho. rewrite !exchange_tokenRequest. unfold grantRequest in Ho.
  repeat split.
  - intros Hsc. eapply tokenRequest_status_error; eassumption.
  - intros Hsc tok Hu Hn.
    rewrite (tokenRequest_decoded _ _ _ _ _ _ _ _ Ho Hsc Hu). cbn [fst snd].
    unfold Now, time.Add. cbn [clock].
    rewrite time_mul_exact by exact Hn. reflexivity.
  - intros Hsc tok err Hu. eapply tokenRequest_parse_error; eassumption.
Qed.

(** ** A refreshed Token is not checked again *)

(** C10, as the code has it.  After a successful refresh [GetToken] returns
    the new Token as issued.  When its lifetime is at most 300 seconds (and
    its nanoseconds fit 64 bits), the Token is expired at every clock reading
    after the one taken on receipt, and at that reading too when the lifetime
    is below 300 seconds. *)
Theorem GetToken_returns_short_lived (m : TokenManager) (w : World) t sc st body tok :
  token m = Some t ->
  Token_IsExpired t (Now w) = true ->
  RefreshToken t <> "" ->
  http.outcome (transport (trace w)
                  (grantRequest (oauth m) (RefreshGrant (RefreshToken t))))
    = http.Response sc st body ->
  sc < 400 ->
  Unmarshal body zeroToken = (tok, None) ->
  -9223372036 <= ExpiresIn tok <= 300 ->
  exists newToken,
    fst (fst (GetToken m w)) = Ok newToken
    /\ ExpiresAt newToken = Now (snd (GetToken m w)) + ExpiresIn tok * time.Second
    /\ (forall later, Now (snd (GetToken m w)) < later ->
          Token_IsExpired newToken later = true)
    /\ (ExpiresIn tok < 300 ->
          Token_IsExpired newToken (Now (snd (GetToken m w))) = true).
Proof.
  intros Ht He Hr Ho Hsc Hu Hn.
  pose proof (tokenRequest_decoded _ _ _ _ _ _ _ _ Ho Hsc Hu) as Hc.
  cbn [grantData] in Hc.
  rewrite (GetToken_refresh_ok m w _ t _ Ht He Hr Hc). cbn [fst snd].
  eexists. split; [reflexivity|].
  rewrite time_mul_exact by lia.
  assert (forall (tk : Token) (w' : World),
            Now (match onTokenRefresh m with
                 | Some cb => notify cb tk w'
                 | None => w'
                 end) = clock w') as Hclock.
  { intros tk w'. destruct (onTokenRefresh m); reflexivity. }
  rewrite Hclock. cbn [clock setExpiresAt ExpiresAt]. unfold time.Add, time.Second.
  repeat split.
  - intros later Hlater. rewrite IsExpired_spec. cbn [setExpiresAt ExpiresAt].
    apply Z.ltb_lt. lia.
  - intros Hlt. rewrite IsExpired_spec. cbn [setExpiresAt ExpiresAt].
    apply Z.ltb_lt. lia.
Qed.

(** ** Overlapping callers *)


Lemma schedule_step_at (i : nat) (pcs : list PC) pc (m : TokenManager) (w : World) :
  pcs !! i = Some pc ->
  schedule_step transport (pcs, m, w) i =
  let '(pc', m', w') := step transport pc m w in (<[i := pc']> pcs, m', w').
Proof. intros H. unfold schedule_step. rewrite H. reflexivity. Qed.

(** A caller scheduled [k] times in a row runs [k] of its statements. *)
Lemma run_replicate (k i : nat) (pcs : list PC) pc (m : TokenManager) (w : World) :
  pcs !! i = Some pc ->
  run transport (replicate k i) (pcs, m, w) =
  let '(pc', m', w') := steps transport k pc m w in (<[i := pc']> pcs, m', w').
Proof.
  revert pcs pc m w.
  induction k as [|k IH]; intros pcs pc m w H.
  - cbn. rewrite list_insert_id by exact H. reflexivity.
  - cbn [replicate]. unfold run. cbn [fold_left].
    rewrite (schedule_step_at i pcs pc m w H).
    cbn [steps].
    destruct (step transport pc m w) as [[pc1 m1] w1].
    fold (run transport (replicate k i) (<[i:=pc1]> pcs, m1, w1)).
    rewrite (IH (<[i:=pc1]> pcs) pc1 m1 w1).
    + destruct (steps transport k pc1 m1 w1) as [[pc2 m2] w2].
      rewrite list_insert_insert_eq. reflexivity.
    + apply list_lookup_insert_eq. eapply lookup_lt_Some; exact H.
Qed.

Lemma run_app (s1 s2 : list nat) (cfg : @Config Ext) :
  run transport (s1 ++ s2) cfg = run transport s2 (run transport s1 cfg).
Proof. unfold run. apply fold_left_app. Qed.



(** One statement keeps a caller from the nil dereference, and never takes
    the Token away from the manager. *)
Lemma step_safe pc (m : TokenManager) (w : World) :
  panicked pc = false ->
  (token m = None -> idle pc = true) ->
  panicked (fst (fst (step transport pc m w))) = false
  /\ (token (snd (fst (step transport pc m w))) = None ->
      token m = None /\ idle (fst (fst (step transport pc m w))) = true).
Proof.
  intros Hp Hidle.
  destruct (token m) as [t|] eqn:Ht.
  - destruct pc as [| | | |[newToken|err]|newToken|newToken| |r|]; cbn [step];
      rewrite ?Ht; try discriminate Hp;
      repeat match goal with
             | |- context [if ?b then _ else _] => destruct b
             | |- context [let (_, _) := ?p in _] => destruct p
             end;
      cbn; rewrite ?Ht; split; try reflexivity; try discriminate.
  - specialize (Hidle eq_refl).
    destruct pc; try discriminate Hidle; cbn [step]; rewrite ?Ht; cbn; auto.
Qed.

Lemma schedule_step_safe (cfg : @Config Ext) (i : nat) :
  safe cfg -> safe (schedule_step transport cfg i).
Proof.
  destruct cfg as [[pcs m] w]. intros [Hp Hidle]. unfold schedule_step.
  destruct (pcs !! i) as [pc|] eqn:Hi; [|split; assumption].
  pose proof (step_safe pc m w (proj1 (Forall_lookup _ _) Hp i pc Hi)) as Hs.
  destruct (step transport pc m w) as [[pc1 m1] w1]. cbn [fst snd] in Hs.
  destruct Hs as [Hp1 Hnone].
  { intros Hm. exact (proj1 (Forall_lookup _ _) (Hidle Hm) i pc Hi). }
  split.
  - apply Forall_insert; assumption.
  - intros Hm1. destruct (Hnone Hm1) as [Hm Hidle1].
    apply Forall_insert; [apply Hidle; exact Hm | exact Hidle1].
Qed.

(** Whatever the schedule, no caller dereferences a nil Token. *)
Lemma run_never_panics (schedule : list nat) (n : nat) (m : TokenManager) (w : World) :
  Forall (fun pc => panicked pc = false)
    (fst (fst (run transport schedule (callers n, m, w)))).
Proof.
  assert (safe (callers n, m, w)) as Hsafe.
  { split; [|intros _]; apply Forall_replicate; reflexivity. }
  assert (forall cfg : @Config Ext, safe cfg -> safe (run transport schedule cfg)) as Hrun.
  { induction schedule as [|i sched IH]; intros cfg Hc; [exact Hc|].
    apply IH. apply schedule_step_safe. exact Hc. }
  specialize (Hrun _ Hsafe).
  destruct (run transport schedule (callers n, m, w)) as [[pcs m'] w'].
  exact (proj1 Hrun).
Qed.

(** A caller that finds the Token expired, with a refresh credential, is
    about to call [RefreshToken] after three statements; nothing has changed
    by then. *)
Lemma steps_to_refresh_call (m : TokenManager) (w : World) t :
  token m = Some t ->
  Token_IsExpired t (Now w) = true ->
  RefreshToken t <> "" ->
  steps transport 3 AtNilCheck m w = (AtRefreshCall, m, w).
Proof.
  intros Ht He Hr. cbn [steps step]. rewrite Ht. cbn [steps step]. rewrite Ht, He.
  cbn [negb steps step]. rewrite Ht.
  destruct (String.eqb_spec (RefreshToken t) ""); [contradiction|reflexivity].
Qed.

(** Two callers that overlap: each passes the three tests before the other
    one refreshes, and each then sends the refresh request, with the same
    refresh credential. *)
Lemma overlapping_callers_two_requests (m : TokenManager) (w : World) t :
  token m = Some t ->
  Token_IsExpired t (Now w) = true ->
  RefreshToken t <> "" ->
  (forall tr req, http.sent (http.outcome (transport tr req)) = true) ->
  requests (trace (snd (run transport [0; 0; 0; 1; 1; 1; 0; 1]%nat (callers 2, m, w))))
  = requests (trace w)
      ++ [grantRequest (oauth m) (RefreshGrant (RefreshToken t));
          grantRequest (oauth m) (RefreshGrant (RefreshToken t))].
Proof.
  intros Ht He Hr Hsent.
  change [0; 0; 0; 1; 1; 1; 0; 1]%nat
    with (replicate 3 0%nat ++ replicate 3 1%nat ++ [0%nat] ++ [1%nat]).
  rewrite !run_app.
  rewrite (run_replicate 3 0 (callers 2) AtNilCheck m w) by reflexivity.
  rewrite (steps_to_refresh_call m w t Ht He Hr).
  rewrite (run_replicate 3 1 _ AtNilCheck m w) by reflexivity.
  rewrite (steps_to_refresh_call m w t Ht He Hr).
  unfold run. cbn [fold_left].
  rewrite (schedule_step_at 0 _ AtRefreshCall m w) by reflexivity.
  cbn [step]. rewrite Ht.
  pose proof (tokenRequest_world (oauth m) (tokenURL_of (oauth m))
                (RefreshToken_data (RefreshToken t)) w) as Hw1.
  unfold OAuthClient_RefreshToken.
  destruct (tokenRequest (oauth m) (tokenURL_of (oauth m))
              (RefreshToken_data (RefreshToken t)) w) as [r1 w1].
  cbn [snd] in Hw1.
  rewrite (schedule_step_at 1 _ AtRefreshCall m w1) by reflexivity.
  cbn [step]. rewrite Ht.
  pose proof (tokenRequest_world (oauth m) (tokenURL_of (oauth m))
                (RefreshToken_data (RefreshToken t)) w1) as Hw2.
  unfold OAuthClient_RefreshToken.
  destruct (tokenRequest (oauth m) (tokenURL_of (oauth m))
              (RefreshToken_data (RefreshToken t)) w1) as [r2 w2].
  cbn [snd] in *. subst w2 w1. unfold exchanged. cbn [trace].
  rewrite !Hsent. unfold requests. rewrite !omap_app. cbn.
  rewrite <- app_assoc. reflexivity.
Qed.



End LifecycleProperties.

(** ** The properties at work on the demonstration endpoints *)

Lemma GetToken_without_token_witness :
  token (Demo.manager None) = None
  /\ TokenManager_GetToken Demo.down (Demo.manager None) Demo.world
     = (Err (errorString "no token available"), Demo.manager None, Demo.world).
Proof.
  split; [reflexivity|].
  apply (GetToken_without_token Demo.down (Demo.manager None) Demo.world).
  reflexivity.
Defined.

Lemma GetToken_refresh_unavailable_witness :
  Token_IsExpired Demo.staleNoRefresh (Now Demo.world) = true
  /\ TokenManager_GetToken Demo.down (Demo.manager (Some Demo.staleNoRefresh)) Demo.world
     = (Err (errorString "token expired and no refresh token available"),
        Demo.manager (Some Demo.staleNoRefresh), Demo.world).
Proof.
  split; [reflexivity|].
  apply (GetToken_refresh_unavailable Demo.down
           (Demo.manager (Some Demo.staleNoRefresh)) Demo.world Demo.staleNoRefresh);
    reflexivity.
Defined.

Lemma GetToken_fresh_read_witness :
  Token_IsExpired Demo.fresh
    (Now (wait (foldr N.add 0%N [1000000000; 60000000000]%N) Demo.world)) = false
  /\ GetToken_seq Demo.down [1000000000; 60000000000]%N
       (Demo.manager (Some Demo.fresh)) Demo.world
     = ([Ok Demo.fresh; Ok Demo.fresh], Demo.manager (Some Demo.fresh),
        wait 61000000000 Demo.world).
Proof.
  split; [reflexivity|].
  apply (GetToken_fresh_read Demo.down (Demo.manager (Some Demo.fresh)) Demo.world
           Demo.fresh [1000000000; 60000000000]%N); reflexivity.
Defined.

Lemma GetToken_refresh_failure_witness :
  Token_IsExpired Demo.stale (Now Demo.world) = true
  /\ RefreshToken Demo.stale <> ""
  /\ TokenManager_GetToken Demo.down (Demo.manager (Some Demo.stale)) Demo.world
     = (Err (wrapError "refreshing token: "
               (wrapError "executing request: "
                  (errorString "context deadline exceeded"))),
        Demo.manager (Some Demo.stale),
        {| clock := Demo.today + 30000000000; store := [];
           trace := [Sent Demo.refreshRequest] |}).
Proof.
  split; [reflexivity|]. split; [discriminate|].
  apply (GetToken_refresh_failure Demo.down (Demo.manager (Some Demo.stale))
           Demo.world _ Demo.stale _);
    [reflexivity | reflexivity | discriminate | vm_compute; reflexivity].
Defined.


Lemma grant_exchange_outcome_witness :
  http.outcome (Demo.answering 403 "403 Forbidden" Demo.stringLifetimeBody
                  (trace Demo.world)
                  (grantRequest Demo.client (AuthorizationCode "c0de")))
    = http.Response 403 "403 Forbidden" Demo.stringLifetimeBody
  /\ 400 <= 403
  /\ fst (exchange (Demo.answering 403 "403 Forbidden" Demo.stringLifetimeBody)
            Demo.client (AuthorizationCode "c0de") Demo.world)
     = Err (errorString ("token request failed: 403 Forbidden - "
                           +:+ http.raw Demo.stringLifetimeBody))
  /\ http.outcome (Demo.rotating (trace Demo.world)
                     (grantRequest Demo.client (AuthorizationCode "c0de")))
     = http.Response 200 "200 OK" (Demo.tokenBody "A1" "R1" 43200)
  /\ 200 < 400
  /\ fst (exchange Demo.rotating Demo.client (AuthorizationCode "c0de") Demo.world)
     = Ok (Demo.issued "A1" "R1" 43200 (Demo.today + 150000000)).
Proof.
  split; [reflexivity|]. split; [lia|]. split.
  - apply (proj1 (grant_exchange_outcome
                    (Demo.answering 403 "403 Forbidden" Demo.stringLifetimeBody)
                    Demo.client (AuthorizationCode "c0de") Demo.world
                    403 "403 Forbidden" Demo.stringLifetimeBody eq_refl)).
    lia.
  - split; [reflexivity|]. split; [lia|].
    rewrite (proj1 (proj2 (grant_exchange_outcome Demo.rotating
                      Demo.client (AuthorizationCode "c0de") Demo.world
                      200 "200 OK" (Demo.tokenBody "A1" "R1" 43200) eq_refl))
               ltac:(lia) (Demo.decoded "A1" "R1" 43200) eq_refl ltac:(cbn; lia)).
    vm_compute. reflexivity.
Defined.

(** C7, as stated, fails on a body that is valid JSON and is not a token
    response: a lifetime sent as a string is a parse error.  And a lifetime
    whose nanoseconds do not fit 64 bits wraps around: the Token expires
    before it was received. *)
Lemma valid_json_without_token :
  http.reading Demo.stringLifetimeBody <> None
  /\ fst (exchange (Demo.answering 200 "200 OK" Demo.stringLifetimeBody)
            Demo.client ClientCredentialsGrant Demo.world)
     = Err (wrapError "parsing token response: "
              (UnmarshalTypeError (json.Str "3600") "expires_in"))
  /\ exists tok,
       fst (exchange (Demo.answering 200 "200 OK" (Demo.tokenBody "A1" "R1" 9223372037))
              Demo.client ClientCredentialsGrant Demo.world) = Ok tok
       /\ ExpiresIn tok = 9223372037
       /\ ExpiresAt tok < Demo.today + 150000000.
Proof.
  split; [discriminate|]. split; [vm_compute; reflexivity|].
  eexists. split; [vm_compute; reflexivity|]. split; [reflexivity|].
  vm_compute. reflexivity.
Qed.

Lemma GetToken_returns_short_lived_witness :
  Token_IsExpired Demo.stale (Now Demo.world) = true
  /\ RefreshToken Demo.stale <> ""
  /\ Unmarshal (Demo.tokenBody "A1" "R1" 120) zeroToken
     = (Demo.decoded "A1" "R1" 120, None)
  /\ -9223372036 <= 120 <= 300
  /\ exists newToken,
       fst (fst (TokenManager_GetToken
                   (Demo.answering 200 "200 OK" (Demo.tokenBody "A1" "R1" 120))
                   (Demo.manager (Some Demo.stale)) Demo.world)) = Ok newToken
       /\ Token_IsExpired newToken (Demo.today + 150000000) = true.
Proof.
  split; [reflexivity|]. split; [discriminate|]. split; [reflexivity|].
  split; [lia|].
  destruct (GetToken_returns_short_lived
              (Demo.answering 200 "200 OK" (Demo.tokenBody "A1" "R1" 120))
              (Demo.manager (Some Demo.stale)) Demo.world Demo.stale
              200 "200 OK" (Demo.tokenBody "A1" "R1" 120)
              (Demo.decoded "A1" "R1" 120)
              eq_refl eq_refl ltac:(discriminate) eq_refl ltac:(lia) eq_refl
              ltac:(cbn; lia))
    as (newToken & Hok & _ & _ & Hnow).
  exists newToken. split; [exact Hok|]. apply Hnow. cbn. lia.
Defined.

(** C10, as stated, fails on its edge: a Token issued for exactly 300
    seconds is not expired at the clock reading taken on receipt.  And a
    lifetime below the range of a 64-bit nanosecond count wraps around to
    some 292 years. *)
Lemma refreshed_token_on_the_edge :
  (let '(r, _, w') :=
     TokenManager_GetToken (Demo.answering 200 "200 OK" (Demo.tokenBody "A1" "R1" 300))
       (Demo.manager (Some Demo.stale)) Demo.world in
   r = Ok (Demo.issued "A1" "R1" 300 (Demo.today + 150000000))
   /\ Token_IsExpired (Demo.issued "A1" "R1" 300 (Demo.today + 150000000)) (Now w')
      = false)
  /\ exists tok,
       fst (fst (TokenManager_GetToken
                   (Demo.answering 200 "200 OK" (Demo.tokenBody "A1" "R1" (-9223372037)))
                   (Demo.manager (Some Demo.stale)) Demo.world)) = Ok tok
       /\ ExpiresIn tok = -9223372037
       /\ Token_IsExpired tok (Demo.today + 150000000 + 60 * time.Minute) = false.
Proof.
  split; [vm_compute; split; reflexivity|].
  eexists. split; [vm_compute; reflexivity|]. split; reflexivity.
Qed.


